(** * Incremental data ingestion with Auto Loader: the notebook's two helpers

    The notebook [4.0-Incremental-Data-Ingestion] defines two Python
    functions and calls a third one from its setup script:

    - [autoload_to_table] chains calls of the Structured Streaming builder
      API (a read of format [cloudFiles], a write to a table) and returns
      the handle of the started query;
    - [block_until_stream_is_ready] polls the handle's [recentProgress]
      attribute in a [while] loop with [time.sleep(5)] and prints a line;
    - [DA.cleanup] stops the streams and removes the lesson's resources.

    The builder API is embedded as records that keep what each call was
    given; [.load] raises on a blank path, as the library's Python code
    does, and starting a query is a state change of the session.  The polling
    helper talks to its environment and may run forever, so it is an
    interaction tree, run against a world that answers its events. *)

From Stdlib Require Import ZArith String List Lia DecimalString.
From stdpp Require Import base option list gmap strings.
From ITree Require Import ITree Eq.Eqit.

Local Open Scope Z_scope.

(** Method chaining, [x.f(a).g(b)], written [x |> f a |> g b]. *)
Notation "x |> f" := (f x) (at level 68, left associativity, only parsing).

(** ** The streaming builder API as the notebook uses it *)

(** [spark.readStream]: a reader remembers its format and its options. *)
Module DataStreamReader.

Record t : Type := Build {
  source : option string;
  extraOptions : gmap string string
}.

Definition format (source' : string) (r : t) : t :=
  {| source := Some source'; extraOptions := extraOptions r |}.

Definition option (key value : string) (r : t) : t :=
  {| source := source r; extraOptions := <[key := value]> (extraOptions r) |}.

End DataStreamReader.

(** The streaming DataFrame that [.load(path)] returns. *)
Record DataFrame : Type := {
  reader : DataStreamReader.t;
  path : string
}.

Definition readStream : DataStreamReader.t :=
  {| DataStreamReader.source := None; DataStreamReader.extraOptions := ∅ |}.

(** A call either returns a value or raises. *)
Inductive Exception : Type := ValueError.

Inductive Result (A : Type) : Type :=
| Ok (a : A)
| Raise (e : Exception).
#[global] Arguments Ok {A} a.
#[global] Arguments Raise {A} e.

(** Python's [str.isspace] on one character; a character of a [string]
    stands for a code point below 256. *)
Definition isspace (c : Ascii.ascii) : bool :=
  let n := Ascii.nat_of_ascii c in
  ((9 <=? n) && (n <=? 13) || (28 <=? n) && (n <=? 32)
   || (n =? 133) || (n =? 160))%nat.

(** Python's [str.lstrip()], [str.rstrip()] and [str.strip()]. *)
Fixpoint lstrip (s : string) : string :=
  match s with
  | EmptyString => EmptyString
  | String c s' => if isspace c then lstrip s' else s
  end.

Fixpoint rstrip (s : string) : string :=
  match s with
  | EmptyString => EmptyString
  | String c s' =>
      match rstrip s' with
      | EmptyString => if isspace c then EmptyString else String c EmptyString
      | String c' s'' => String c (String c' s'')
      end
  end.

Definition strip (s : string) : string := rstrip (lstrip s).

(** [.load(path)], as the library's Python code has it: the path is a
    string here, and [len(path.strip()) == 0] raises [ValueError] before
    anything else is done with the reader. *)
Definition load (path' : string) (r : DataStreamReader.t) : Result DataFrame :=
  if (String.length (strip path') =? 0)%nat
  then Raise ValueError
  else Ok {| reader := r; path := path' |}.

(** [df.writeStream]: a writer remembers its input and its options. *)
Module DataStreamWriter.

Record t : Type := Build {
  df : DataFrame;
  extraOptions : gmap string string
}.

Definition option (key value : string) (w : t) : t :=
  {| df := df w; extraOptions := <[key := value]> (extraOptions w) |}.

End DataStreamWriter.

Definition writeStream (d : DataFrame) : DataStreamWriter.t :=
  {| DataStreamWriter.df := d; DataStreamWriter.extraOptions := ∅ |}.

(** The handle of a started query: which start request of the session it
    was, the writer it was started from and the table it appends to. *)
Record StreamingQuery : Type := {
  queryId : nat;
  writer : DataStreamWriter.t;
  tableName : string
}.

(** The session keeps the queries it was asked to start, oldest first.
    Whether the engine then accepts the paths and the format is the
    engine's business; the session records the request. *)
Record SparkSession : Type := {
  streams : list StreamingQuery
}.

(** [.table(name)] starts the query: the one call of the chain with an
    effect on the session. *)
Definition table (tableName' : string) (w : DataStreamWriter.t)
    (spark : SparkSession) : StreamingQuery * SparkSession :=
  let query := {| queryId := length (streams spark);
                  writer := w;
                  tableName := tableName' |} in
  (query, {| streams := streams spark ++ [query] |}).

(** ** [autoload_to_table] *)

(** A call on what an earlier call of the chain returned: if that one
    raised, so does the chain, and the session is left as it was. *)
Notation "x |>? f" :=
  (fun spark => match x with
                | Ok v => Ok (f v spark)
                | Raise e => Raise e
                end)
  (at level 68, left associativity, only parsing).

Definition autoload_to_table
    (data_source source_format table_name checkpoint_directory : string)
    (spark : SparkSession) : Result (StreamingQuery * SparkSession) :=
  let query := (readStream
                  |> DataStreamReader.format "cloudFiles"
                  |> DataStreamReader.option "cloudFiles.format" source_format
                  |> DataStreamReader.option "cloudFiles.schemaLocation" checkpoint_directory
                  |> load data_source
                  |>? (fun df => df
                  |> writeStream
                  |> DataStreamWriter.option "checkpointLocation" checkpoint_directory
                  |> DataStreamWriter.option "mergeSchema" "true"
                  |> table table_name)) spark in
  query.


(** A string that [strip] leaves nothing of: every character is
    whitespace. *)
Fixpoint blank (s : string) : bool :=
  match s with
  | EmptyString => true
  | String c s' => isspace c && blank s'
  end.






(** The chain written out: the query that a call starts. *)
Definition started_query (data_source source_format table_name checkpoint_directory : string)
    (spark : SparkSession) : StreamingQuery :=
  {| queryId := length (streams spark);
     writer :=
       {| DataStreamWriter.df :=
            {| reader :=
                 {| DataStreamReader.source := Some "cloudFiles"%string;
                    DataStreamReader.extraOptions :=
                      <["cloudFiles.schemaLocation"%string := checkpoint_directory]>
                        (<["cloudFiles.format"%string := source_format]> ∅) |};
               path := data_source |};
          DataStreamWriter.extraOptions :=
            <["mergeSchema"%string := "true"%string]>
              (<["checkpointLocation"%string := checkpoint_directory]> ∅) |};
     tableName := table_name |}.


(** ** [block_until_stream_is_ready] *)

Notation "'let*' x ':=' t 'in' k" := (ITree.bind t (fun x => k))
  (at level 10, x name, t at level 100, k at level 200, only parsing).
Notation "'do' t 'then' k" := (ITree.bind t (fun _ => k))
  (at level 10, t at level 100, k at level 200, only parsing).

Section Waiting.

(** The entries of [recentProgress] are the engine's; the helper only
    counts them. *)
Context {Progress : Type}.

(** What the helper asks of its environment. *)
Variant streamE : Type -> Type :=
| RecentProgress (query : StreamingQuery) : streamE (list Progress)
| Sleep (secs : Z) : streamE unit
| Print (line : string) : streamE unit.

(** Python's [len]. *)
Definition len {A : Type} (l : list A) : Z := Z.of_nat (length l).

(** [f"The stream has processed {n} batchs"], for the [n] that [len] gave. *)
Definition message (n : Z) : string :=
  "The stream has processed " +:+ NilZero.string_of_int (Z.to_int n) +:+ " batchs".

(** One turn of the [while]: evaluate the test, and either sleep and go
    round again ([inl]) or leave the loop ([inr]). *)
Definition poll (query : StreamingQuery) (min_batches : Z) (_ : unit)
    : itree streamE (unit + unit) :=
  let* progress := ITree.trigger (RecentProgress query) in
  if len progress <? min_batches
  then do ITree.trigger (Sleep 5) then Ret (inl tt)
  else Ret (inr tt).

(** The parameter [min_batches=2]: [None] is a call that leaves it out. *)
Definition block_until_stream_is_ready (query : StreamingQuery)
    (min_batches : option Z) : itree streamE unit :=
  let min_batches := default 2 min_batches in
  do ITree.iter (poll query min_batches) tt then
  let* progress := ITree.trigger (RecentProgress query) in
  ITree.trigger (Print (message (len progress))).

(** *** The world the helper runs in *)

(** [accesses] counts the evaluations of [query.recentProgress] so far,
    [slept] keeps the argument of every [time.sleep] and [stdout] every
    printed line, both oldest first. *)
Record World : Type := {
  accesses : nat;
  slept : list Z;
  stdout : list string
}.

(** The engine's side of a handle: [recentProgress q i] is the list that
    the [i]-th evaluation of the attribute finds. *)
Variable recentProgress : StreamingQuery -> nat -> list Progress.

Definition handle {X : Type} (e : streamE X) (w : World) : X * World :=
  match e in streamE X return X * World with
  | RecentProgress query =>
      (recentProgress query (accesses w),
       {| accesses := S (accesses w); slept := slept w; stdout := stdout w |})
  | Sleep secs =>
      (tt, {| accesses := accesses w; slept := slept w ++ [secs]; stdout := stdout w |})
  | Print line =>
      (tt, {| accesses := accesses w; slept := slept w; stdout := stdout w ++ [line] |})
  end.

(** A run either returns or is still going when the steps run out. *)
Inductive Outcome (R : Type) : Type :=
| Returned (r : R) (w : World)
| Running (w : World).
#[global] Arguments Returned {R} r w.
#[global] Arguments Running {R} w.

(** [run fuel t w] performs at most [fuel] steps of [t] from [w]; an event
    and a turn of a loop cost one step each, returning costs none. *)
Fixpoint run {R : Type} (fuel : nat) (t : itree streamE R) (w : World) : Outcome R :=
  match observe t with
  | RetF r => Returned r w
  | TauF t' =>
      match fuel with
      | O => Running w
      | S fuel' => run fuel' t' w
      end
  | VisF e k =>
      match fuel with
      | O => Running w
      | S fuel' => let (x, w') := handle e w in run fuel' (k x) w'
      end
  end.

(** The world after [n] turns of the loop that each slept. *)
Definition after_sleeps (n : nat) (w : World) : World :=
  {| accesses := accesses w + n;
     slept := slept w ++ replicate n 5;
     stdout := stdout w |}.

(** The count that the [i]-th evaluation from [w] on finds. *)
Definition observed (query : StreamingQuery) (w : World) (i : nat) : Z :=
  len (recentProgress query (accesses w + i)).

(** The world in which the helper returns when the test first fails at
    its [n]-th evaluation: [n] sleeps, [n + 2] evaluations, one line. *)
Definition returned_world (query : StreamingQuery) (n : nat) (w : World) : World :=
  {| accesses := accesses w + n + 2;
     slept := slept w ++ replicate n 5;
     stdout := stdout w ++ [message (observed query w (n + 1))] |}.

(** The world in which a helper that has slept at every turn so far is
    found after [fuel] steps: a turn is three steps, the evaluation of the
    test, the sleep and the jump back. *)
Definition paused_world (fuel : nat) (w : World) : World :=
  {| accesses := accesses w + (fuel + 2) / 3;
     slept := slept w ++ replicate ((fuel + 1) / 3) 5;
     stdout := stdout w |}.

End Waiting.

(** *** The notebook's own call, and two streams to run it against *)

(** The query of the notebook's third code cell. *)
Definition notebook_query : StreamingQuery :=
  started_query "/dbfs/working_dir/tracker" "json" "target_table"
    "/dbfs/checkpoints/target_table" {| streams := [] |}.

(** A stream that has one more batch to show at every evaluation. *)
Definition steady_stream (_ : StreamingQuery) (i : nat) : list unit :=
  replicate i tt.

(** A stream that never processes a batch. *)
Definition stalled_stream (_ : StreamingQuery) (_ : nat) : list unit := [].

Definition fresh_world : World :=
  {| accesses := 0; slept := []; stdout := [] |}.

(** ** [DA.cleanup] *)

(** The notebook calls [DA.cleanup()] and nothing more: the function is
    defined in the setup script [Includes/4.0-setup]. *)
Module DA.

(** Modelled from the spec: the states of an ingestion job,
    [CONFIGURED -> RUNNING -> (STOPPED | FAILED)]. *)
Inductive JobState : Type := CONFIGURED | RUNNING | STOPPED | FAILED.

(** Modelled from the spec: a job is identified by its source directory,
    its target table and its checkpoint directory. *)
Definition JobId : Type := string * string * string.

(** Modelled from the spec: what teardown acts on, the jobs of the session
    and the directories provisioned for the demonstration (working
    directories, checkpoint directories). *)
Record Lesson : Type := {
  jobs : gmap JobId JobState;
  provisioned : gset string
}.

(** Modelled from the spec: stopping one handle.  A running job becomes
    stopped; the spec asks that a job already stopped is left alone, and
    names no transition out of the other states. *)
Definition stop (s : JobState) : JobState :=
  match s with
  | RUNNING => STOPPED
  | CONFIGURED => CONFIGURED
  | STOPPED => STOPPED
  | FAILED => FAILED
  end.

(** Modelled from the spec: [teardown()], the setup script's [DA.cleanup],
    "stops all running job handles and releases any demonstration-only
    provisioned resources". *)
Definition cleanup (d : Lesson) : Lesson :=
  {| jobs := stop <$> jobs d; provisioned := ∅ |}.

(** A lesson in mid-course: the notebook's job is running, an earlier one
    was stopped by hand, and both directories are still there. *)
Definition lesson_in_progress : Lesson :=
  {| jobs :=
       <[("/dbfs/working_dir/tracker", "target_table",
          "/dbfs/checkpoints/target_table")%string := RUNNING]>
         (<[("/dbfs/working_dir/old", "old_table",
             "/dbfs/checkpoints/old_table")%string := STOPPED]> ∅);
     provisioned := {[ "/dbfs/working_dir"%string; "/dbfs/checkpoints"%string ]} |}.

End DA.

(** ** The notebook's cells *)





(** The world a run has reached, returned or not. *)
Definition world_of {R : Type} (o : Outcome R) : World :=
  match o with
  | Returned _ w => w
  | Running w => w
  end.

(** ** The view [device_counts] *)

(** A row of [target_table].  Auto Loader gave every field of the JSON
    records the type STRING and added the column [_rescued_data]; a value
    is a string or NULL. *)
Record Row : Type := {
  device_id : option string;
  mrn : option string;
  time : option string;
  heartrate : option string;
  rescued_data : option string
}.

(** [count( * )] for the group of one more row: the group's count goes up
    by one, from nothing if the row opens the group. *)
Definition count_row (r : Row) (view : gmap (option string) nat)
    : gmap (option string) nat :=
  partial_alter (fun c => Some (S (default 0%nat c))) (device_id r) view.

(** [SELECT device_id, count( * ) total_recordings FROM target_table
    GROUP BY device_id]: one row of the result per value of [device_id]
    (NULL is a value of its own), here as the map from that value to its
    [total_recordings]; the rows of a result have no order. *)
Definition device_counts (target_table : list Row) : gmap (option string) nat :=
  foldr count_row ∅ target_table.

(** The rows of the table that a group gathers. *)
Definition group_of (d : option string) (target_table : list Row) : list Row :=
  filter (fun r => device_id r = d) target_table.

(** The sum of the column [total_recordings]. *)
Definition sum_total_recordings (view : gmap (option string) nat) : nat :=
  map_fold (fun _ c s => (c + s)%nat) 0%nat view.

(** * Properties *)

(** ** [autoload_to_table] *)

Example autoload_example :
  autoload_to_table "/dbfs/tracker" "json" "target_table"
    "/dbfs/checkpoints/target_table" {| streams := [] |}
  = Ok (started_query "/dbfs/tracker" "json" "target_table"
          "/dbfs/checkpoints/target_table" {| streams := [] |},
        {| streams := [started_query "/dbfs/tracker" "json" "target_table"
                         "/dbfs/checkpoints/target_table" {| streams := [] |}] |}).
Proof. vm_compute. reflexivity. Qed.

Example strip_example : strip "  /dbfs/my data  " = "/dbfs/my data"%string.
Proof. reflexivity. Qed.

Example load_blank_example : load "   " readStream = Raise ValueError.
Proof. reflexivity. Qed.

(** *** What [strip] leaves *)

Lemma lstrip_blank s : blank s = true -> lstrip s = EmptyString.
Proof.
  induction s as [|c s IH]; [reflexivity | ]. cbn.
  destruct (isspace c); [exact IH | discriminate].
Qed.

Lemma lstrip_not_blank s :
  blank s = false -> exists c t, lstrip s = String c t /\ isspace c = false.
Proof.
  induction s as [|c s IH]; [discriminate | ]. cbn.
  destruct (isspace c) eqn:Hc; [exact IH | ]. intros _. eauto.
Qed.

Lemma rstrip_keeps_head c t : isspace c = false -> rstrip (String c t) <> EmptyString.
Proof.
  intros Hc. cbn. rewrite Hc. destruct (rstrip t); discriminate.
Qed.

(** The test of [load]: nothing is left of a path exactly when all its
    characters are whitespace. *)
Lemma strip_nothing_left s : (String.length (strip s) =? 0)%nat = blank s.
Proof.
  unfold strip. destruct (blank s) eqn:Hs.
  - rewrite lstrip_blank by exact Hs. reflexivity.
  - destruct (lstrip_not_blank s Hs) as (c & t & -> & Hc).
    pose proof (rstrip_keeps_head c t Hc) as Hne.
    destruct (rstrip (String c t)); [congruence | reflexivity].
Qed.


Lemma autoload_to_table_blank ds sf tn cd spark :
  blank ds = true -> autoload_to_table ds sf tn cd spark = Raise ValueError.
Proof.
  intros Hds. unfold autoload_to_table, load.
  rewrite strip_nothing_left, Hds. reflexivity.
Qed.

Lemma autoload_to_table_unfold ds sf tn cd spark :
  blank ds = false ->
  autoload_to_table ds sf tn cd spark =
  Ok (started_query ds sf tn cd spark,
      {| streams := streams spark ++ [started_query ds sf tn cd spark] |}).
Proof.
  intros Hds. unfold autoload_to_table, load.
  rewrite strip_nothing_left, Hds. reflexivity.
Qed.

(** A call that returned was given a path that is not blank, and returned
    the query of the chain. *)
Lemma autoload_to_table_returned ds sf tn cd spark q spark' :
  autoload_to_table ds sf tn cd spark = Ok (q, spark') ->
  blank ds = false
  /\ q = started_query ds sf tn cd spark
  /\ spark' = {| streams := streams spark ++ [q] |}.
Proof.
  destruct (blank ds) eqn:Hds.
  - rewrite autoload_to_table_blank by exact Hds. discriminate.
  - rewrite autoload_to_table_unfold by exact Hds. intros [= <- <-]. auto.
Qed.









(** ** [block_until_stream_is_ready] *)

Example message_example : message 12 = "The stream has processed 12 batchs"%string.
Proof. reflexivity. Qed.

Section WaitingFacts.

Context {Progress : Type} (recentProgress : StreamingQuery -> nat -> list Progress).

(** *** Running a tree step by step *)

Lemma run_eq_itree {R} fuel :
  forall (t t' : itree streamE R) w,
    t ≅ t' -> run recentProgress fuel t w = run recentProgress fuel t' w.
Proof.
  induction fuel as [|fuel IH]; intros t t' w H; apply eqit_inv in H;
    cbn in *; unfold observe; destruct (_observe t), (_observe t'); cbn in H;
    try contradiction; try discriminate; subst; try reflexivity.
  - apply IH, H.
  - destruct H as (p & He & Hk). destruct p. cbn in He, Hk. subst.
    destruct (handle recentProgress e0 w). apply IH, Hk.
Qed.

#[local] Instance run_proper {R} fuel :
  Proper (eq_itree eq ==> eq ==> eq) (@run Progress recentProgress R fuel).
Proof. intros t t' H w ? <-. apply run_eq_itree, H. Qed.

Lemma run_Ret {R} fuel (r : R) w :
  run recentProgress fuel (Ret r) w = Returned r w.
Proof. destruct fuel; reflexivity. Qed.

Lemma run_Tau {R} fuel (t : itree streamE R) w :
  run recentProgress (S fuel) (Tau t) w = run recentProgress fuel t w.
Proof. reflexivity. Qed.

Lemma run_RecentProgress {R} fuel q (k : list Progress -> itree streamE R) w :
  run recentProgress (S fuel) (Vis (RecentProgress q) k) w
  = run recentProgress fuel (k (recentProgress q (accesses w)))
      {| accesses := S (accesses w); slept := slept w; stdout := stdout w |}.
Proof. reflexivity. Qed.

Lemma run_Sleep {R} fuel secs (k : unit -> itree streamE R) w :
  run recentProgress (S fuel) (Vis (Sleep secs) k) w
  = run recentProgress fuel (k tt)
      {| accesses := accesses w; slept := slept w ++ [secs]; stdout := stdout w |}.
Proof. reflexivity. Qed.

Lemma run_Print {R} fuel line (k : unit -> itree streamE R) w :
  run recentProgress (S fuel) (Vis (Print line) k) w
  = run recentProgress fuel (k tt)
      {| accesses := accesses w; slept := slept w; stdout := stdout w ++ [line] |}.
Proof. reflexivity. Qed.

Lemma run_out_of_fuel {R X} (e : streamE X) (k : X -> itree streamE R) w :
  run recentProgress 0 (Vis e k) w = Running w.
Proof. reflexivity. Qed.

(** *** The worlds a run goes through *)

Lemma World_eq (w w' : World) :
  accesses w = accesses w' -> slept w = slept w' -> stdout w = stdout w' -> w = w'.
Proof. destruct w, w'; cbn; intros -> -> ->; reflexivity. Qed.

Lemma observed_after_sleeps q m w i :
  observed recentProgress q (after_sleeps m w) i = observed recentProgress q w (m + i).
Proof. unfold observed, after_sleeps; cbn. rewrite Nat.add_assoc. reflexivity. Qed.

Lemma after_sleeps_0 w : after_sleeps 0 w = w.
Proof. apply World_eq; cbn; [lia | apply app_nil_r | reflexivity]. Qed.

Lemma after_sleeps_S n w : after_sleeps n (after_sleeps 1 w) = after_sleeps (S n) w.
Proof.
  apply World_eq; cbn; [lia | | reflexivity].
  rewrite <- (assoc_L (++)). reflexivity.
Qed.

Lemma returned_world_S q n w :
  returned_world recentProgress q n (after_sleeps 1 w)
  = returned_world recentProgress q (S n) w.
Proof.
  apply World_eq; cbn.
  - lia.
  - rewrite <- (assoc_L (++)). reflexivity.
  - rewrite observed_after_sleeps. reflexivity.
Qed.

Lemma paused_world_turn fuel w :
  paused_world fuel (after_sleeps 1 w) = paused_world (S (S (S fuel))) w.
Proof.
  assert (Hdiv : forall m, ((3 + m) / 3 = S (m / 3))%nat).
  { intros m. replace (3 + m)%nat with (1 * 3 + m)%nat by lia.
    rewrite Nat.div_add_l by lia. reflexivity. }
  apply World_eq; cbn [paused_world after_sleeps accesses slept stdout].
  - replace (S (S (S fuel)) + 2)%nat with (3 + (fuel + 2))%nat by lia.
    rewrite Hdiv. lia.
  - replace (S (S (S fuel)) + 1)%nat with (3 + (fuel + 1))%nat by lia.
    rewrite Hdiv, <- (assoc_L (++)). reflexivity.
  - reflexivity.
Qed.

(** *** One turn of the loop *)

Section Loop.

Context {R : Type} (q : StreamingQuery) (k : Z).
Context (cont : unit -> itree (@streamE Progress) R).

(** The [while] of the helper, followed by the rest of the function. *)
#[local] Notation "'waiting'" := (ITree.bind (ITree.iter (poll q k) tt) cont)
  (only parsing).

Lemma run_turn fuel w :
  observed recentProgress q w 0 < k ->
  run recentProgress (S (S (S fuel))) waiting w
  = run recentProgress fuel waiting (after_sleeps 1 w).
Proof.
  unfold observed. rewrite Nat.add_0_r. intros H%Z.ltb_lt.
  rewrite unfold_iter at 1. unfold poll at 1. rewrite !bind_bind, bind_trigger.
  rewrite run_RecentProgress, H.
  rewrite !bind_bind, bind_trigger, run_Sleep.
  rewrite bind_ret_l, bind_tau, run_Tau.
  f_equal. apply World_eq; cbn; [lia | reflexivity | reflexivity].
Qed.

Lemma run_leave fuel w :
  k <= observed recentProgress q w 0 ->
  run recentProgress (S fuel) waiting w
  = run recentProgress fuel (cont tt)
      {| accesses := S (accesses w); slept := slept w; stdout := stdout w |}.
Proof.
  unfold observed. rewrite Nat.add_0_r. intros H%Z.ltb_ge.
  rewrite unfold_iter. unfold poll at 1. rewrite !bind_bind, bind_trigger.
  rewrite run_RecentProgress, H.
  rewrite !bind_ret_l. reflexivity.
Qed.

Lemma run_no_fuel w : run recentProgress 0 waiting w = Running w.
Proof.
  rewrite unfold_iter. unfold poll at 1.
  rewrite !bind_bind, bind_trigger. apply run_out_of_fuel.
Qed.

(** With less fuel than a turn takes, a helper that has to sleep is
    caught in the middle of the turn. *)
Lemma run_short fuel w :
  observed recentProgress q w 0 < k ->
  (fuel < 3)%nat ->
  run recentProgress fuel waiting w = Running (paused_world fuel w).
Proof.
  intros Hlt Hfuel. destruct fuel as [|[|[|fuel]]]; [ | | | lia].
  - rewrite run_no_fuel. f_equal.
    apply World_eq; cbn; [lia | symmetry; apply app_nil_r | reflexivity].
  - revert Hlt. unfold observed. rewrite Nat.add_0_r. intros H%Z.ltb_lt.
    rewrite unfold_iter. unfold poll at 1. rewrite !bind_bind, bind_trigger.
    rewrite run_RecentProgress, H, !bind_bind, bind_trigger, run_out_of_fuel.
    f_equal. apply World_eq; cbn; [lia | symmetry; apply app_nil_r | reflexivity].
  - revert Hlt. unfold observed. rewrite Nat.add_0_r. intros H%Z.ltb_lt.
    rewrite unfold_iter. unfold poll at 1. rewrite !bind_bind, bind_trigger.
    rewrite run_RecentProgress, H, !bind_bind, bind_trigger, run_Sleep.
    rewrite bind_ret_l, bind_tau. cbn.
    f_equal. apply World_eq; cbn; [lia | reflexivity | reflexivity].
Qed.

(** [n] turns that all sleep cost [3 * n] steps. *)
Lemma run_turns n : forall fuel w,
  (forall i, (i < n)%nat -> observed recentProgress q w i < k) ->
  run recentProgress (3 * n + fuel) waiting w
  = run recentProgress fuel waiting (after_sleeps n w).
Proof.
  induction n as [|n IH]; intros fuel w Hlt.
  - rewrite after_sleeps_0. reflexivity.
  - replace (3 * S n + fuel)%nat with (S (S (S (3 * n + fuel)))) by lia.
    rewrite run_turn by (apply Hlt; lia).
    rewrite IH, after_sleeps_S; [reflexivity | ].
    intros i Hi. rewrite observed_after_sleeps. apply Hlt. lia.
Qed.

(** A helper whose test never fails is still in its loop after any
    number of steps. *)
Lemma run_stalled : forall fuel w,
  (forall i, observed recentProgress q w i < k) ->
  run recentProgress fuel waiting w = Running (paused_world fuel w).
Proof.
  intros fuel. induction fuel as [fuel IH] using lt_wf_ind. intros w Hlt.
  destruct (Nat.lt_ge_cases fuel 3) as [Hshort | Hlong].
  - apply run_short; [apply Hlt | exact Hshort].
  - destruct fuel as [|[|[|fuel]]]; [lia | lia | lia | ].
    rewrite run_turn by apply Hlt.
    rewrite IH, paused_world_turn; [reflexivity | lia | ].
    intros i. rewrite observed_after_sleeps. apply Hlt.
Qed.

End Loop.

(** *** The whole helper *)

(** What follows the loop: one more evaluation of the attribute, for the
    printed line. *)
Lemma run_report q fuel w :
  run recentProgress (S (S fuel))
    (ITree.bind (ITree.trigger (RecentProgress q))
       (fun progress => ITree.trigger (Print (message (len progress)))))
    {| accesses := S (accesses w); slept := slept w; stdout := stdout w |}
  = Returned tt (returned_world recentProgress q 0 w).
Proof.
  rewrite bind_trigger, run_RecentProgress.
  unfold ITree.trigger. rewrite run_Print, run_Ret. f_equal.
  apply World_eq; cbn.
  - lia.
  - symmetry; apply app_nil_r.
  - unfold observed. rewrite Nat.add_1_r. reflexivity.
Qed.

Lemma run_report_short q fuel w r w' :
  (fuel < 2)%nat ->
  run recentProgress fuel
    (ITree.bind (ITree.trigger (RecentProgress q))
       (fun progress => ITree.trigger (Print (message (len progress))))) w
  <> Returned r w'.
Proof.
  intros Hfuel. rewrite bind_trigger.
  destruct fuel as [|[|fuel]]; [ | | lia].
  - rewrite run_out_of_fuel. discriminate.
  - rewrite run_RecentProgress. unfold ITree.trigger.
    rewrite run_out_of_fuel. discriminate.
Qed.

(** If the test first fails at its [n]-th evaluation, the helper returns,
    after [3 * n + 3] steps. *)
Lemma block_returns q min_batches n : forall fuel w,
  (forall i, (i < n)%nat -> observed recentProgress q w i < default 2 min_batches) ->
  default 2 min_batches <= observed recentProgress q w n ->
  run recentProgress (3 * n + 3 + fuel) (block_until_stream_is_ready q min_batches) w
  = Returned tt (returned_world recentProgress q n w).
Proof.
  unfold block_until_stream_is_ready.
  induction n as [|n IH]; intros fuel w Hlt Hge.
  - cbn [Nat.mul Nat.add]. rewrite run_leave by exact Hge. apply run_report.
  - replace (3 * S n + 3 + fuel)%nat with (S (S (S (3 * n + 3 + fuel)))) by lia.
    rewrite run_turn by (apply Hlt; lia).
    rewrite IH, returned_world_S; [reflexivity | | ].
    + intros i Hi. rewrite observed_after_sleeps. apply Hlt. lia.
    + rewrite observed_after_sleeps. exact Hge.
Qed.

(** If the helper returns, its test failed at some evaluation, and held
    at every evaluation before that one. *)
Lemma block_returned_inv q min_batches : forall fuel w w',
  run recentProgress fuel (block_until_stream_is_ready q min_batches) w = Returned tt w' ->
  exists n : nat,
    default 2 min_batches <= observed recentProgress q w n
    /\ (forall i, (i < n)%nat -> observed recentProgress q w i < default 2 min_batches)
    /\ w' = returned_world recentProgress q n w.
Proof.
  unfold block_until_stream_is_ready.
  intros fuel. induction fuel as [fuel IH] using lt_wf_ind. intros w w' Hrun.
  destruct (Z.lt_ge_cases (observed recentProgress q w 0) (default 2 min_batches))
    as [Hlt | Hge].
  - destruct (Nat.lt_ge_cases fuel 3) as [Hshort | Hlong].
    + rewrite run_short in Hrun by assumption. discriminate.
    + destruct fuel as [|[|[|fuel]]]; [lia | lia | lia | ].
      rewrite run_turn in Hrun by exact Hlt.
      apply IH in Hrun as (n & Hge & Hbelow & ->); [ | lia].
      exists (S n). rewrite observed_after_sleeps in Hge.
      split; [exact Hge | split].
      * intros [|i] Hi; [exact Hlt | ].
        specialize (Hbelow i). rewrite observed_after_sleeps in Hbelow.
        apply Hbelow. lia.
      * apply returned_world_S.
  - exists 0%nat. split; [exact Hge | split; [intros i Hi; lia | ]].
    destruct fuel as [|fuel].
    + rewrite run_no_fuel in Hrun. discriminate.
    + rewrite run_leave in Hrun by exact Hge.
      destruct (Nat.lt_ge_cases fuel 2) as [Hshort | Hlong].
      * exfalso. revert Hrun. apply run_report_short, Hshort.
      * destruct fuel as [|[|fuel]]; [lia | lia | ].
        rewrite run_report in Hrun. congruence.
Qed.

(** C1. The helper returns only when the count it observed is at least
    the threshold: if [block_until_stream_is_ready(query, k)] returns, the
    evaluation of the test that let it leave the loop found at least [k]
    entries in [recentProgress], every evaluation before that one found
    fewer than [k] (each answered by one sleep of 5 seconds), and nothing
    else happened but the final line. *)
Theorem returns_only_at_threshold q k fuel w w' :
  run recentProgress fuel (block_until_stream_is_ready q (Some k)) w = Returned tt w' ->
  exists n : nat,
    k <= observed recentProgress q w n
    /\ (forall i, (i < n)%nat -> observed recentProgress q w i < k)
    /\ w' = returned_world recentProgress q n w.
Proof. apply (block_returned_inv q (Some k)). Qed.

(** C3. For a handle whose observed count never reaches [min_batches], the
    helper never returns: after any number of steps it is still in its
    loop, it has printed nothing, and all it has done is to evaluate the
    test and to sleep 5 seconds, over and over. *)
Theorem stalled_wait_never_returns q min_batches w :
  (forall i, observed recentProgress q w i < default 2 min_batches) ->
  forall fuel,
    run recentProgress fuel (block_until_stream_is_ready q min_batches) w
    = Running (paused_world fuel w).
Proof.
  intros Hlt fuel. unfold block_until_stream_is_ready.
  apply run_stalled, Hlt.
Qed.

(** C8. Without a second argument the threshold is 2: the call
    [block_until_stream_is_ready(query)] is the call
    [block_until_stream_is_ready(query, 2)], and when it returns, the test
    that let it leave the loop found at least 2 entries. *)
Theorem default_threshold_is_two q :
  @block_until_stream_is_ready Progress q None = block_until_stream_is_ready q (Some 2)
  /\ forall fuel w w',
       run recentProgress fuel (block_until_stream_is_ready q None) w = Returned tt w' ->
       exists n : nat,
         2 <= observed recentProgress q w n
         /\ (forall i, (i < n)%nat -> observed recentProgress q w i < 2)
         /\ w' = returned_world recentProgress q n w.
Proof.
  split; [reflexivity | ].
  intros fuel w w'. apply (block_returned_inv q None).
Qed.

(** C9. The test comes before the sleep: when the count is already at
    least [min_batches] at the call, and so whenever [min_batches] is 0 or
    less, the helper returns within three steps (the test, the evaluation
    for the printed line, the print) and has not slept. *)
Theorem ready_stream_returns_without_sleeping q k w fuel :
  k <= observed recentProgress q w 0 \/ k <= 0 ->
  run recentProgress (3 + fuel) (block_until_stream_is_ready q (Some k)) w
  = Returned tt (returned_world recentProgress q 0 w)
  /\ slept (returned_world recentProgress q 0 w) = slept w.
Proof.
  intros H. assert (Hge : k <= observed recentProgress q w 0).
  { destruct H as [H | H]; [exact H | ]. unfold observed, len. lia. }
  split.
  - apply (block_returns q (Some k) 0 fuel w); [intros i Hi; lia | exact Hge].
  - cbn. apply app_nil_r.
Qed.

End WaitingFacts.

(** The four properties of the helper, on the notebook's query. *)

Lemma returns_only_at_threshold_witness :
  let w' := {| accesses := 4; slept := [5; 5];
               stdout := ["The stream has processed 3 batchs"%string] |} in
  run steady_stream 9 (block_until_stream_is_ready notebook_query (Some 2)) fresh_world
  = Returned tt w'
  /\ exists n : nat,
       2 <= observed steady_stream notebook_query fresh_world n
       /\ (forall i, (i < n)%nat -> observed steady_stream notebook_query fresh_world i < 2)
       /\ w' = returned_world steady_stream notebook_query n fresh_world.
Proof.
  split; [reflexivity | ].
  apply (returns_only_at_threshold steady_stream notebook_query 2 9 fresh_world).
  reflexivity.
Defined.

Lemma stalled_wait_never_returns_witness :
  (forall i, observed stalled_stream notebook_query fresh_world i < 2)
  /\ run stalled_stream 30 (block_until_stream_is_ready notebook_query None) fresh_world
     = Running {| accesses := 10; slept := replicate 10 5; stdout := [] |}.
Proof.
  split; [intros i; reflexivity | ].
  apply (stalled_wait_never_returns stalled_stream notebook_query None fresh_world).
  intros i. reflexivity.
Defined.

Lemma default_threshold_is_two_witness :
  let w' := {| accesses := 4; slept := [5; 5];
               stdout := ["The stream has processed 3 batchs"%string] |} in
  run steady_stream 9 (block_until_stream_is_ready notebook_query None) fresh_world
  = Returned tt w'
  /\ exists n : nat,
       2 <= observed steady_stream notebook_query fresh_world n
       /\ (forall i, (i < n)%nat -> observed steady_stream notebook_query fresh_world i < 2)
       /\ w' = returned_world steady_stream notebook_query n fresh_world.
Proof.
  split; [reflexivity | ].
  apply (proj2 (default_threshold_is_two steady_stream notebook_query) 9%nat fresh_world).
  reflexivity.
Defined.

Lemma ready_stream_returns_without_sleeping_witness :
  (0 <= observed steady_stream notebook_query fresh_world 0 \/ 0 <= 0)
  /\ run steady_stream 3 (block_until_stream_is_ready notebook_query (Some 0)) fresh_world
     = Returned tt {| accesses := 2; slept := [];
                      stdout := ["The stream has processed 1 batchs"%string] |}.
Proof.
  split; [right; lia | ].
  apply (ready_stream_returns_without_sleeping steady_stream notebook_query 0
           fresh_world 0).
  right. lia.
Defined.

(** ** [DA.cleanup] *)

Lemma stop_idempotent s : DA.stop (DA.stop s) = DA.stop s.
Proof. destruct s; reflexivity. Qed.

Example cleanup_example :
  DA.cleanup DA.lesson_in_progress =
  {| DA.jobs :=
       <[("/dbfs/working_dir/tracker", "target_table",
          "/dbfs/checkpoints/target_table")%string := DA.STOPPED]>
         (<[("/dbfs/working_dir/old", "old_table",
             "/dbfs/checkpoints/old_table")%string := DA.STOPPED]> ∅);
     DA.provisioned := ∅ |}.
Proof. reflexivity. Qed.

Lemma cleanup_jobs_lookup d j :
  DA.jobs (DA.cleanup d) !! j = DA.stop <$> DA.jobs d !! j.
Proof. unfold DA.cleanup; cbn. apply lookup_fmap. Qed.

(** C5. Teardown is idempotent: a second call leaves the state that the
    first one produced.  A job that is already stopped is left stopped,
    and on a lesson where every job is stopped and nothing is provisioned
    the call changes nothing; the function is total, so no call fails. *)
Theorem cleanup_idempotent d :
  DA.cleanup (DA.cleanup d) = DA.cleanup d
  /\ (forall j, DA.jobs d !! j = Some DA.STOPPED ->
                DA.jobs (DA.cleanup d) !! j = Some DA.STOPPED)
  /\ (forall ids : gset DA.JobId,
        let stopped := {| DA.jobs := gset_to_gmap DA.STOPPED ids;
                          DA.provisioned := ∅ |} in
        DA.cleanup stopped = stopped).
Proof.
  split; [ | split].
  - unfold DA.cleanup; cbn. f_equal.
    rewrite <- map_fmap_compose. apply map_fmap_ext.
    intros j s _. apply stop_idempotent.
  - intros j Hj. rewrite cleanup_jobs_lookup, Hj. reflexivity.
  - intros ids. unfold DA.cleanup; cbn. f_equal.
    apply fmap_gset_to_gmap.
Qed.

Lemma cleanup_idempotent_witness :
  let j := ("/dbfs/working_dir/old", "old_table", "/dbfs/checkpoints/old_table")%string in
  DA.jobs DA.lesson_in_progress !! j = Some DA.STOPPED
  /\ DA.jobs (DA.cleanup DA.lesson_in_progress) !! j = Some DA.STOPPED
  /\ DA.cleanup (DA.cleanup DA.lesson_in_progress) = DA.cleanup DA.lesson_in_progress.
Proof.
  cbv zeta. split; [reflexivity | split].
  - apply (proj1 (proj2 (cleanup_idempotent DA.lesson_in_progress))). reflexivity.
  - apply (proj1 (cleanup_idempotent DA.lesson_in_progress)).
Defined.

(** ** More on [block_until_stream_is_ready] *)

Section WaitingMore.

Context {Progress : Type} (recentProgress : StreamingQuery -> nat -> list Progress).

#[local] Instance run_proper' {R} fuel :
  Proper (eq_itree eq ==> eq ==> eq) (@run Progress recentProgress R fuel).
Proof. intros t t' H w ? <-. apply run_eq_itree, H. Qed.

(** Among the evaluations before the [n]-th, either all find fewer than
    [k] entries or there is a first one that finds [k] or more. *)
Lemma search_ready q k w n :
  (forall i, (i < n)%nat -> observed recentProgress q w i < k)
  \/ exists m, (m < n)%nat
       /\ k <= observed recentProgress q w m
       /\ forall i, (i < m)%nat -> observed recentProgress q w i < k.
Proof.
  induction n as [|n [IH | IH]].
  - left. intros i Hi. lia.
  - destruct (Z.lt_ge_cases (observed recentProgress q w n) k) as [Hlt | Hge].
    + left. intros i Hi. destruct (decide (i = n)) as [-> | Hne]; [exact Hlt | ].
      apply IH. lia.
    + right. exists n. split; [lia | split; [exact Hge | exact IH]].
  - right. destruct IH as (m & Hm & Hge & Hbelow).
    exists m. split; [lia | split; [exact Hge | exact Hbelow]].
Qed.

Lemma first_ready q k w n :
  k <= observed recentProgress q w n ->
  exists m, (m <= n)%nat
    /\ k <= observed recentProgress q w m
    /\ forall i, (i < m)%nat -> observed recentProgress q w i < k.
Proof.
  intros Hge. destruct (search_ready q k w (S n)) as [Hall | (m & Hm & Hm')].
  - specialize (Hall n). lia.
  - exists m. split; [lia | exact Hm'].
Qed.

Lemma observed_monotone q w :
  (forall i, observed recentProgress q w i <= observed recentProgress q w (S i)) ->
  forall i j, (i <= j)%nat ->
    observed recentProgress q w i <= observed recentProgress q w j.
Proof.
  intros Hstep i j Hij. induction Hij as [|j Hij IH]; [lia | ].
  specialize (Hstep j). lia.
Qed.

(** What is left to do after the loop, with any fuel: nothing is slept,
    and a line is printed only on return. *)
Lemma run_report_cases q fuel w :
  let o := run recentProgress fuel
             (ITree.bind (ITree.trigger (RecentProgress q))
                (fun progress => ITree.trigger (Print (message (len progress)))))
             w in
  slept (world_of o) = slept w
  /\ match o with
     | Returned _ w' => exists line, stdout w' = stdout w ++ [line]
     | Running w' => stdout w' = stdout w
     end.
Proof.
  cbv zeta. rewrite bind_trigger.
  destruct fuel as [|[|fuel]].
  - rewrite run_out_of_fuel. split; reflexivity.
  - rewrite run_RecentProgress. unfold ITree.trigger.
    rewrite run_out_of_fuel. split; reflexivity.
  - rewrite run_RecentProgress. unfold ITree.trigger.
    rewrite run_Print, run_Ret. split; [reflexivity | ]. cbn. eauto.
Qed.

(** X2. Whatever the stream does and however long the helper is watched,
    all it has slept are calls of 5 seconds, at most one for every three
    steps, and it has printed nothing unless it has returned, in which
    case it has printed one line. *)
Theorem helper_sleeps_five_and_prints_on_return q min_batches : forall fuel w,
  let o := run recentProgress fuel (block_until_stream_is_ready q min_batches) w in
  (exists m, (3 * m <= fuel + 1)%nat /\ slept (world_of o) = slept w ++ replicate m 5)
  /\ match o with
     | Returned _ w' => exists line, stdout w' = stdout w ++ [line]
     | Running w' => stdout w' = stdout w
     end.
Proof.
  unfold block_until_stream_is_ready. cbv zeta.
  intros fuel. induction fuel as [fuel IH] using lt_wf_ind. intros w.
  destruct (Z.lt_ge_cases (observed recentProgress q w 0) (default 2 min_batches))
    as [Hlt | Hge].
  - destruct (Nat.lt_ge_cases fuel 3) as [Hshort | Hlong].
    + rewrite run_short by assumption. cbn. split; [ | reflexivity].
      exists ((fuel + 1) / 3)%nat. split; [ | reflexivity].
      destruct fuel as [|[|[|fuel]]]; cbn; lia.
    + destruct fuel as [|[|[|fuel]]]; [lia | lia | lia | ].
      rewrite run_turn by exact Hlt.
      destruct (IH fuel ltac:(lia) (after_sleeps 1 w)) as [(m & Hm & Hslept) Hout].
      split; [ | exact Hout].
      exists (S m). split; [lia | ].
      rewrite Hslept. cbn. rewrite <- (assoc_L (++)). reflexivity.
  - destruct fuel as [|fuel].
    + rewrite run_no_fuel. cbn. split; [ | reflexivity].
      exists 0%nat. split; [lia | symmetry; apply app_nil_r].
    + rewrite run_leave by exact Hge.
      destruct (run_report_cases q fuel
                  {| accesses := S (accesses w); slept := slept w; stdout := stdout w |})
        as [Hslept Hout].
      split; [ | exact Hout].
      exists 0%nat. split; [lia | ]. rewrite Hslept. cbn. symmetry; apply app_nil_r.
Qed.

(** X1. The helper does return once the batches are there: if the
    [n]-th evaluation of the test is the first to find [min_batches]
    entries or more, the helper returns, after [3 * n + 3] steps, having
    slept exactly [n] times 5 seconds and evaluated the attribute [n + 2]
    times. *)
Theorem returns_at_first_ready q k n w fuel :
  (forall i, (i < n)%nat -> observed recentProgress q w i < k) ->
  k <= observed recentProgress q w n ->
  exists w',
    run recentProgress (3 * n + 3 + fuel) (block_until_stream_is_ready q (Some k)) w
    = Returned tt w'
    /\ slept w' = slept w ++ replicate n 5
    /\ accesses w' = (accesses w + n + 2)%nat.
Proof.
  intros Hlt Hge. exists (returned_world recentProgress q n w).
  split; [ | split; reflexivity].
  apply (block_returns recentProgress q (Some k) n fuel w Hlt Hge).
Qed.

(** X3. A lower threshold never waits longer: if the helper returns for
    the threshold [k], it returns for every [k' <= k] against the same
    stream, and has slept no more often. *)
Theorem lower_threshold_returns_no_later q k k' fuel w w' :
  k' <= k ->
  run recentProgress fuel (block_until_stream_is_ready q (Some k)) w = Returned tt w' ->
  exists fuel' w'',
    run recentProgress fuel' (block_until_stream_is_ready q (Some k')) w = Returned tt w''
    /\ (length (slept w'') <= length (slept w'))%nat.
Proof.
  intros Hk Hrun.
  apply (block_returned_inv recentProgress q (Some k)) in Hrun as (n & Hge & _ & ->).
  cbn in Hge.
  destruct (first_ready q k' w n ltac:(lia)) as (m & Hmn & Hge' & Hbelow).
  exists (3 * m + 3 + 0)%nat, (returned_world recentProgress q m w). split.
  - apply (block_returns recentProgress q (Some k') m 0 w Hbelow Hge').
  - cbn. rewrite !length_app, !length_replicate. lia.
Qed.

(** X4. The printed count is the one of a later evaluation than the one
    tested.  Against a stream whose count never goes down, the line that
    the helper prints on return reports at least [min_batches]. *)
Theorem printed_count_reaches_threshold q k fuel w w' :
  (forall i, observed recentProgress q w i <= observed recentProgress q w (S i)) ->
  run recentProgress fuel (block_until_stream_is_ready q (Some k)) w = Returned tt w' ->
  exists c, k <= c /\ stdout w' = stdout w ++ [message c].
Proof.
  intros Hmono Hrun.
  apply (block_returned_inv recentProgress q (Some k)) in Hrun as (n & Hge & _ & ->).
  cbn in Hge. exists (observed recentProgress q w (n + 1)). split; [ | reflexivity].
  pose proof (observed_monotone q w Hmono n (n + 1)%nat ltac:(lia)). lia.
Qed.

(** X5. Waiting twice: against a stream whose count never goes down, once
    the helper has returned for [k], a second call for any [k' <= k] from
    where the first one ended returns at once, without sleeping. *)
Theorem second_wait_returns_at_once q k k' fuel fuel' w w' :
  (forall i, observed recentProgress q w i <= observed recentProgress q w (S i)) ->
  k' <= k ->
  run recentProgress fuel (block_until_stream_is_ready q (Some k)) w = Returned tt w' ->
  exists w'',
    run recentProgress (3 + fuel') (block_until_stream_is_ready q (Some k')) w'
    = Returned tt w''
    /\ slept w'' = slept w'.
Proof.
  intros Hmono Hk Hrun.
  apply (block_returned_inv recentProgress q (Some k)) in Hrun as (n & Hge & _ & ->).
  cbn in Hge. set (w' := returned_world recentProgress q n w).
  assert (Hready : k' <= observed recentProgress q w' 0).
  { pose proof (observed_monotone q w Hmono n (n + 2 + 0)%nat ltac:(lia)) as Hle.
    unfold observed at 2 in Hle. unfold observed, w'. cbn.
    replace (accesses w + n + 2 + 0)%nat with (accesses w + (n + 2 + 0))%nat by lia.
    lia. }
  exists (returned_world recentProgress q 0 w'). split.
  - apply (block_returns recentProgress q (Some k') 0 fuel' w');
      [intros i Hi; lia | exact Hready].
  - cbn. apply app_nil_r.
Qed.

End WaitingMore.

Lemma steady_stream_observed q i :
  observed steady_stream q fresh_world i = Z.of_nat i.
Proof. unfold observed, steady_stream, len; cbn. rewrite length_replicate. reflexivity. Qed.

Lemma returns_at_first_ready_witness :
  (forall i, (i < 2)%nat -> observed steady_stream notebook_query fresh_world i < 2)
  /\ 2 <= observed steady_stream notebook_query fresh_world 2
  /\ exists w',
       run steady_stream 9 (block_until_stream_is_ready notebook_query (Some 2)) fresh_world
       = Returned tt w'
       /\ slept w' = [5; 5]
       /\ accesses w' = 4%nat.
Proof.
  assert (Hlt : forall i, (i < 2)%nat ->
                  observed steady_stream notebook_query fresh_world i < 2).
  { intros i Hi. rewrite steady_stream_observed. lia. }
  assert (Hge : 2 <= observed steady_stream notebook_query fresh_world 2).
  { rewrite steady_stream_observed. lia. }
  split; [exact Hlt | split; [exact Hge | ]].
  apply (returns_at_first_ready steady_stream notebook_query 2 2 fresh_world 0 Hlt Hge).
Defined.

Lemma lower_threshold_returns_no_later_witness :
  let w' := {| accesses := 4; slept := [5; 5];
               stdout := ["The stream has processed 3 batchs"%string] |} in
  1 <= 2
  /\ run steady_stream 9 (block_until_stream_is_ready notebook_query (Some 2)) fresh_world
     = Returned tt w'
  /\ exists fuel' w'',
       run steady_stream fuel' (block_until_stream_is_ready notebook_query (Some 1))
         fresh_world = Returned tt w''
       /\ (length (slept w'') <= 2)%nat.
Proof.
  cbv zeta. split; [lia | split; [reflexivity | ]].
  apply (lower_threshold_returns_no_later steady_stream notebook_query 2 1 9 fresh_world
           {| accesses := 4; slept := [5; 5];
              stdout := ["The stream has processed 3 batchs"%string] |});
    [lia | reflexivity].
Defined.

Lemma printed_count_reaches_threshold_witness :
  let w' := {| accesses := 4; slept := [5; 5];
               stdout := ["The stream has processed 3 batchs"%string] |} in
  (forall i, observed steady_stream notebook_query fresh_world i
             <= observed steady_stream notebook_query fresh_world (S i))
  /\ run steady_stream 9 (block_until_stream_is_ready notebook_query (Some 2)) fresh_world
     = Returned tt w'
  /\ exists c, 2 <= c /\ stdout w' = stdout fresh_world ++ [message c].
Proof.
  cbv zeta.
  assert (Hmono : forall i, observed steady_stream notebook_query fresh_world i
                            <= observed steady_stream notebook_query fresh_world (S i)).
  { intros i. rewrite !steady_stream_observed. lia. }
  split; [exact Hmono | split; [reflexivity | ]].
  apply (printed_count_reaches_threshold steady_stream notebook_query 2 9 fresh_world
           {| accesses := 4; slept := [5; 5];
              stdout := ["The stream has processed 3 batchs"%string] |} Hmono).
  reflexivity.
Defined.

Lemma second_wait_returns_at_once_witness :
  let w' := {| accesses := 4; slept := [5; 5];
               stdout := ["The stream has processed 3 batchs"%string] |} in
  (forall i, observed steady_stream notebook_query fresh_world i
             <= observed steady_stream notebook_query fresh_world (S i))
  /\ 1 <= 2
  /\ run steady_stream 9 (block_until_stream_is_ready notebook_query (Some 2)) fresh_world
     = Returned tt w'
  /\ exists w'',
       run steady_stream 3 (block_until_stream_is_ready notebook_query (Some 1)) w'
       = Returned tt w''
       /\ slept w'' = [5; 5].
Proof.
  cbv zeta.
  assert (Hmono : forall i, observed steady_stream notebook_query fresh_world i
                            <= observed steady_stream notebook_query fresh_world (S i)).
  { intros i. rewrite !steady_stream_observed. lia. }
  split; [exact Hmono | split; [lia | split; [reflexivity | ]]].
  apply (second_wait_returns_at_once steady_stream notebook_query 2 1 9 0 fresh_world
           {| accesses := 4; slept := [5; 5];
              stdout := ["The stream has processed 3 batchs"%string] |} Hmono);
    [lia | reflexivity].
Defined.

(** ** More on [autoload_to_table] and on the cell that calls it *)

(** X6. The function sets two options on the read and two on the write,
    and no other: whatever the arguments, the read of a query it starts
    has exactly [cloudFiles.format] and [cloudFiles.schemaLocation], the
    write exactly [checkpointLocation] and [mergeSchema]. *)
Theorem autoload_sets_no_other_option ds sf tn cd spark q spark' :
  autoload_to_table ds sf tn cd spark = Ok (q, spark') ->
  dom (DataStreamReader.extraOptions (reader (DataStreamWriter.df (writer q))))
  = ({[ "cloudFiles.format"%string; "cloudFiles.schemaLocation"%string ]} : gset string)
  /\ dom (DataStreamWriter.extraOptions (writer q))
     = ({[ "checkpointLocation"%string; "mergeSchema"%string ]} : gset string).
Proof.
  intros (_ & -> & _)%autoload_to_table_returned. cbn -[insert dom].
  rewrite !dom_insert_L, !dom_empty_L. split; set_solver.
Qed.

Lemma autoload_sets_no_other_option_witness :
  autoload_to_table "/dbfs/working_dir/tracker" "json" "target_table"
    "/dbfs/checkpoints/target_table" {| streams := [] |}
  = Ok (notebook_query, {| streams := [notebook_query] |})
  /\ dom (DataStreamReader.extraOptions
            (reader (DataStreamWriter.df (writer notebook_query))))
     = ({[ "cloudFiles.format"%string; "cloudFiles.schemaLocation"%string ]} : gset string)
  /\ dom (DataStreamWriter.extraOptions (writer notebook_query))
     = ({[ "checkpointLocation"%string; "mergeSchema"%string ]} : gset string).
Proof.
  split; [reflexivity | ].
  apply (autoload_sets_no_other_option "/dbfs/working_dir/tracker" "json" "target_table"
           "/dbfs/checkpoints/target_table" {| streams := [] |}
           notebook_query {| streams := [notebook_query] |}).
  reflexivity.
Defined.



(** ** The view [device_counts] *)

Example device_counts_example :
  let reading (d : string) :=
    {| device_id := Some d; mrn := None; time := None; heartrate := None;
       rescued_data := None |} in
  device_counts [reading "23"; reading "17"; reading "23"]
  = <[Some "23"%string := 2%nat]> (<[Some "17"%string := 1%nat]> ∅).
Proof. vm_compute. reflexivity. Qed.

Lemma group_of_cons_in r t : group_of (device_id r) (r :: t) = r :: group_of (device_id r) t.
Proof. unfold group_of. apply filter_cons_True. reflexivity. Qed.

Lemma group_of_cons_out d r t : device_id r <> d -> group_of d (r :: t) = group_of d t.
Proof. intros Hne. unfold group_of. apply filter_cons_False. exact Hne. Qed.

(** How often a value of [device_id] occurs decides its row of the view. *)
Lemma device_counts_lookup t d :
  device_counts t !! d
  = match length (group_of d t) with
    | O => None
    | S c => Some (S c)
    end.
Proof.
  induction t as [|r t IH]; [apply lookup_empty | ].
  change (device_counts (r :: t)) with (count_row r (device_counts t)).
  unfold count_row. rewrite lookup_partial_alter.
  destruct (decide (device_id r = d)) as [<- | Hne].
  - rewrite group_of_cons_in, IH. cbn [length].
    destruct (length (group_of (device_id r) t)); reflexivity.
  - rewrite group_of_cons_out by exact Hne. exact IH.
Qed.

Lemma device_counts_default t d :
  default 0%nat (device_counts t !! d) = length (group_of d t).
Proof. rewrite device_counts_lookup. destruct (length (group_of d t)); reflexivity. Qed.

(** X10. The view has one row for every value of [device_id] that occurs
    in the table, NULL included, and none for a value that does not
    occur; the row's [total_recordings] is the number of rows of the table
    with that value. *)
Theorem device_counts_counts_each_device t d :
  device_counts t !! d
  = if decide (group_of d t = []) then None else Some (length (group_of d t)).
Proof.
  rewrite device_counts_lookup.
  destruct (group_of d t) as [|r g]; reflexivity.
Qed.

(** X11. Landing new data: when rows are appended to the table, the view
    shows for every device its former total plus the number of appended
    rows with that device, so no total ever goes down and a device
    without new rows keeps its total. *)
Theorem device_counts_after_append t batch d :
  default 0%nat (device_counts (t ++ batch) !! d)
  = (default 0%nat (device_counts t !! d) + length (group_of d batch))%nat.
Proof.
  rewrite !device_counts_default. unfold group_of.
  rewrite filter_app. apply length_app.
Qed.

(** X12. The view does not depend on the order of the rows of the
    table. *)
Theorem device_counts_order_independent t t' :
  t ≡ₚ t' -> device_counts t = device_counts t'.
Proof.
  intros Hperm. apply map_eq; intros d. rewrite !device_counts_lookup.
  unfold group_of. rewrite Hperm. reflexivity.
Qed.

Lemma sum_total_recordings_insert (view : gmap (option string) nat) d c :
  (sum_total_recordings (<[d := c]> view) + default 0 (view !! d)
   = c + sum_total_recordings view)%nat.
Proof.
  unfold sum_total_recordings.
  destruct (view !! d) as [c0|] eqn:Hd; cbn [default from_option]; unfold id.
  - rewrite <- insert_delete_eq.
    rewrite map_fold_insert_L;
      [ | intros; cbn beta; lia | apply lookup_delete_eq].
    rewrite (map_fold_delete_L _ _ d c0 view);
      [cbn beta; lia | intros; cbn beta; lia | exact Hd].
  - rewrite map_fold_insert_L; [cbn beta; lia | intros; cbn beta; lia | exact Hd].
Qed.

(** X13. Every row of the table is counted once: the totals of the view
    add up to the number of rows of the table. *)
Theorem device_counts_total t :
  sum_total_recordings (device_counts t) = length t.
Proof.
  induction t as [|r t IH]; [reflexivity | ].
  change (device_counts (r :: t)) with (count_row r (device_counts t)).
  unfold count_row.
  rewrite (partial_alter_ext _
             (fun _ => Some (S (default 0%nat (device_counts t !! device_id r)))))
    by (intros x <-; reflexivity).
  change (partial_alter (fun _ => Some ?v) ?k ?m) with (<[k := v]> m).
  pose proof (sum_total_recordings_insert (device_counts t) (device_id r)
                (S (default 0%nat (device_counts t !! device_id r)))) as Hsum.
  cbn [length]. lia.
Qed.

(** X14. Over an empty table the view has no row at all, over any other
    table it has one, and it never has a row whose total is 0. *)
Theorem device_counts_has_no_empty_group t :
  (device_counts t = ∅ <-> t = [])
  /\ map_Forall (fun _ c => (0 < c)%nat) (device_counts t).
Proof.
  split; [split | ].
  - intros Hempty. destruct t as [|r t]; [reflexivity | exfalso].
    assert (Hr : device_counts (r :: t) !! device_id r = None)
      by (rewrite Hempty; apply lookup_empty).
    rewrite device_counts_lookup, group_of_cons_in in Hr. discriminate.
  - intros ->. reflexivity.
  - intros d c. rewrite device_counts_lookup.
    destruct (length (group_of d t)); [discriminate | ].
    intros [= <-]. lia.
Qed.

Lemma device_counts_order_independent_witness :
  let reading (d : string) :=
    {| device_id := Some d; mrn := None; time := None; heartrate := None;
       rescued_data := None |} in
  [reading "23"; reading "17"] ≡ₚ [reading "17"; reading "23"]
  /\ device_counts [reading "23"; reading "17"] = device_counts [reading "17"; reading "23"].
Proof.
  cbv zeta. split; [apply perm_swap | ].
  apply device_counts_order_independent. apply perm_swap.
Defined.
